(** * Clickr: the click-automation engine of [src/main.rs]

    A shallow embedding of the shared [App] state, of [AppHolder::click_loop]
    (one iteration at a time), of [App::click_mouse] and
    [App::try_release_mouse], of the edge-detection block of
    [AppHolder::update], and of the two F6 handlers.

    Conventions:
    - [u32] values are [Z] with the wrap-around of the release build written
      out ([wrap_u32]);
    - [f32] and [f64] values are real numbers: rounding is not modelled;
    - the pointer library ([mouse_rs]) is a function telling, for each call,
      whether the platform accepts it; [.expect(..)] on a rejected call is a
      panic;
    - [Instant::now()] and the uniform draw of [rand] are inputs of a tick;
    - the [Mutex<App>] is the state together with its poison flag. *)

From Stdlib Require Import ZArith Lia Reals Lra Bool List String.
Import ListNotations.
Open Scope R_scope.

(** ** Data model *)

Module MouseButton.
Inductive t := Left | Right | Middle.
End MouseButton.

Module ClickMode.
Inductive t := Click | Toggle.
(** [ClickMode::iter()] (strum's [EnumIter]), in declaration order. *)
Definition iter : list t := [Click; Toggle].
End ClickMode.

Module LimitMode.
Inductive t := None | Clicks | Time.
End LimitMode.

Module IntervalMode.
Inductive t := Constant | Random.
End IntervalMode.

(** [mouse_rs::types::keys::Keys], the three buttons used here. *)
Module Keys.
Inductive t := LEFT | MIDDLE | RIGHT.
End Keys.

(** egui's [Color32]: four bytes. *)
Record Color32 := mkColor32 { c_r : Z; c_g : Z; c_b : Z; c_a : Z }.

Definition Color32_BLACK : Color32 := mkColor32 0 0 0 255.

(** The four fields of a [Color32] are [u8]s. *)
Definition Color32_wf (c : Color32) : Prop :=
  (0 <= c_r c <= 255 /\ 0 <= c_g c <= 255 /\ 0 <= c_b c <= 255
   /\ 0 <= c_a c <= 255)%Z.

(** [u32] arithmetic of the release build. *)
Definition wrap_u32 (x : Z) : Z := Z.modulo x (2 ^ 32).

(** [struct App] (the [mouse] handle is the [mouse] argument of the
    functions that use it). *)
Record App := mkApp {
  interval_mode : IntervalMode.t;
  hours : Z;
  minutes : Z;
  seconds : Z;
  milliseconds : Z;
  interval_mode_random_min : R;
  interval_mode_random_max : R;
  mouse_button : MouseButton.t;
  click_mode : ClickMode.t;
  mouse_is_pressed : bool;
  clicker_id : Z;
  color_mode : bool;
  color_mode_color : Color32;
  color_mode_distance_threshold : R;
  hovering_pixel_color : Color32;
  limit_mode : LimitMode.t;
  limit_mode_clicks_amount : Z;
  limit_mode_time : R;
  clicker_enabled : bool;
  last_clicker_enabled : bool;
  clicker_start_time : R;
  total_clicks : Z
}.

(** Field assignments [app.f = v]. *)
Definition set_mouse_is_pressed (v : bool) (a : App) : App :=
  {| interval_mode := interval_mode a; hours := hours a; minutes := minutes a;
     seconds := seconds a; milliseconds := milliseconds a;
     interval_mode_random_min := interval_mode_random_min a;
     interval_mode_random_max := interval_mode_random_max a;
     mouse_button := mouse_button a; click_mode := click_mode a;
     mouse_is_pressed := v; clicker_id := clicker_id a;
     color_mode := color_mode a; color_mode_color := color_mode_color a;
     color_mode_distance_threshold := color_mode_distance_threshold a;
     hovering_pixel_color := hovering_pixel_color a;
     limit_mode := limit_mode a;
     limit_mode_clicks_amount := limit_mode_clicks_amount a;
     limit_mode_time := limit_mode_time a;
     clicker_enabled := clicker_enabled a;
     last_clicker_enabled := last_clicker_enabled a;
     clicker_start_time := clicker_start_time a;
     total_clicks := total_clicks a |}.

Definition set_total_clicks (v : Z) (a : App) : App :=
  {| interval_mode := interval_mode a; hours := hours a; minutes := minutes a;
     seconds := seconds a; milliseconds := milliseconds a;
     interval_mode_random_min := interval_mode_random_min a;
     interval_mode_random_max := interval_mode_random_max a;
     mouse_button := mouse_button a; click_mode := click_mode a;
     mouse_is_pressed := mouse_is_pressed a; clicker_id := clicker_id a;
     color_mode := color_mode a; color_mode_color := color_mode_color a;
     color_mode_distance_threshold := color_mode_distance_threshold a;
     hovering_pixel_color := hovering_pixel_color a;
     limit_mode := limit_mode a;
     limit_mode_clicks_amount := limit_mode_clicks_amount a;
     limit_mode_time := limit_mode_time a;
     clicker_enabled := clicker_enabled a;
     last_clicker_enabled := last_clicker_enabled a;
     clicker_start_time := clicker_start_time a;
     total_clicks := v |}.

Definition set_clicker_id (v : Z) (a : App) : App :=
  {| interval_mode := interval_mode a; hours := hours a; minutes := minutes a;
     seconds := seconds a; milliseconds := milliseconds a;
     interval_mode_random_min := interval_mode_random_min a;
     interval_mode_random_max := interval_mode_random_max a;
     mouse_button := mouse_button a; click_mode := click_mode a;
     mouse_is_pressed := mouse_is_pressed a; clicker_id := v;
     color_mode := color_mode a; color_mode_color := color_mode_color a;
     color_mode_distance_threshold := color_mode_distance_threshold a;
     hovering_pixel_color := hovering_pixel_color a;
     limit_mode := limit_mode a;
     limit_mode_clicks_amount := limit_mode_clicks_amount a;
     limit_mode_time := limit_mode_time a;
     clicker_enabled := clicker_enabled a;
     last_clicker_enabled := last_clicker_enabled a;
     clicker_start_time := clicker_start_time a;
     total_clicks := total_clicks a |}.

Definition set_clicker_enabled (v : bool) (a : App) : App :=
  {| interval_mode := interval_mode a; hours := hours a; minutes := minutes a;
     seconds := seconds a; milliseconds := milliseconds a;
     interval_mode_random_min := interval_mode_random_min a;
     interval_mode_random_max := interval_mode_random_max a;
     mouse_button := mouse_button a; click_mode := click_mode a;
     mouse_is_pressed := mouse_is_pressed a; clicker_id := clicker_id a;
     color_mode := color_mode a; color_mode_color := color_mode_color a;
     color_mode_distance_threshold := color_mode_distance_threshold a;
     hovering_pixel_color := hovering_pixel_color a;
     limit_mode := limit_mode a;
     limit_mode_clicks_amount := limit_mode_clicks_amount a;
     limit_mode_time := limit_mode_time a;
     clicker_enabled := v;
     last_clicker_enabled := last_clicker_enabled a;
     clicker_start_time := clicker_start_time a;
     total_clicks := total_clicks a |}.

Definition set_last_clicker_enabled (v : bool) (a : App) : App :=
  {| interval_mode := interval_mode a; hours := hours a; minutes := minutes a;
     seconds := seconds a; milliseconds := milliseconds a;
     interval_mode_random_min := interval_mode_random_min a;
     interval_mode_random_max := interval_mode_random_max a;
     mouse_button := mouse_button a; click_mode := click_mode a;
     mouse_is_pressed := mouse_is_pressed a; clicker_id := clicker_id a;
     color_mode := color_mode a; color_mode_color := color_mode_color a;
     color_mode_distance_threshold := color_mode_distance_threshold a;
     hovering_pixel_color := hovering_pixel_color a;
     limit_mode := limit_mode a;
     limit_mode_clicks_amount := limit_mode_clicks_amount a;
     limit_mode_time := limit_mode_time a;
     clicker_enabled := clicker_enabled a;
     last_clicker_enabled := v;
     clicker_start_time := clicker_start_time a;
     total_clicks := total_clicks a |}.

Definition set_clicker_start_time (v : R) (a : App) : App :=
  {| interval_mode := interval_mode a; hours := hours a; minutes := minutes a;
     seconds := seconds a; milliseconds := milliseconds a;
     interval_mode_random_min := interval_mode_random_min a;
     interval_mode_random_max := interval_mode_random_max a;
     mouse_button := mouse_button a; click_mode := click_mode a;
     mouse_is_pressed := mouse_is_pressed a; clicker_id := clicker_id a;
     color_mode := color_mode a; color_mode_color := color_mode_color a;
     color_mode_distance_threshold := color_mode_distance_threshold a;
     hovering_pixel_color := hovering_pixel_color a;
     limit_mode := limit_mode a;
     limit_mode_clicks_amount := limit_mode_clicks_amount a;
     limit_mode_time := limit_mode_time a;
     clicker_enabled := clicker_enabled a;
     last_clicker_enabled := last_clicker_enabled a;
     clicker_start_time := v;
     total_clicks := total_clicks a |}.

Definition set_hovering_pixel_color (v : Color32) (a : App) : App :=
  {| interval_mode := interval_mode a; hours := hours a; minutes := minutes a;
     seconds := seconds a; milliseconds := milliseconds a;
     interval_mode_random_min := interval_mode_random_min a;
     interval_mode_random_max := interval_mode_random_max a;
     mouse_button := mouse_button a; click_mode := click_mode a;
     mouse_is_pressed := mouse_is_pressed a; clicker_id := clicker_id a;
     color_mode := color_mode a; color_mode_color := color_mode_color a;
     color_mode_distance_threshold := color_mode_distance_threshold a;
     hovering_pixel_color := v;
     limit_mode := limit_mode a;
     limit_mode_clicks_amount := limit_mode_clicks_amount a;
     limit_mode_time := limit_mode_time a;
     clicker_enabled := clicker_enabled a;
     last_clicker_enabled := last_clicker_enabled a;
     clicker_start_time := clicker_start_time a;
     total_clicks := total_clicks a |}.

Definition set_interval_mode_random (min max : R) (a : App) : App :=
  {| interval_mode := interval_mode a; hours := hours a; minutes := minutes a;
     seconds := seconds a; milliseconds := milliseconds a;
     interval_mode_random_min := min;
     interval_mode_random_max := max;
     mouse_button := mouse_button a; click_mode := click_mode a;
     mouse_is_pressed := mouse_is_pressed a; clicker_id := clicker_id a;
     color_mode := color_mode a; color_mode_color := color_mode_color a;
     color_mode_distance_threshold := color_mode_distance_threshold a;
     hovering_pixel_color := hovering_pixel_color a;
     limit_mode := limit_mode a;
     limit_mode_clicks_amount := limit_mode_clicks_amount a;
     limit_mode_time := limit_mode_time a;
     clicker_enabled := clicker_enabled a;
     last_clicker_enabled := last_clicker_enabled a;
     clicker_start_time := clicker_start_time a;
     total_clicks := total_clicks a |}.

(** ** Panics and the pointer library *)

(** A computation that either returns or panics with a message. *)
Inductive Res (A : Type) := Ok (x : A) | Panic (msg : string).
Arguments Ok {A} x.
Arguments Panic {A} msg.

(** The calls [mouse.press], [mouse.release] and [mouse.click] of
    [mouse_rs::Mouse]; [click] is the library's own press-and-release. *)
Inductive MouseCall :=
| press (k : Keys.t)
| release (k : Keys.t)
| click (k : Keys.t).

(** The platform behind [mouse_rs]: [true] when it accepts the call
    ([Ok(())]), [false] when it reports an error. *)
Definition Mouse := MouseCall -> bool.

(** [self.mouse.<call>(&button).expect(msg)]: the calls performed, or a
    panic. *)
Definition expect_call (mouse : Mouse) (c : MouseCall) (msg : string)
  : Res (list MouseCall) :=
  if mouse c then Ok [c] else Panic msg.

Definition button_key (b : MouseButton.t) : Keys.t :=
  match b with
  | MouseButton.Left => Keys.LEFT
  | MouseButton.Middle => Keys.MIDDLE
  | MouseButton.Right => Keys.RIGHT
  end.

(** [App::click_mouse]. *)
Definition click_mouse (mouse : Mouse) (a : App) : Res (list MouseCall) :=
  let button := button_key (mouse_button a) in
  match click_mode a with
  | ClickMode.Toggle =>
      if mouse_is_pressed a
      then expect_call mouse (press button) "Unable to press button"
      else expect_call mouse (release button) "Unable to release button"
  | _ => expect_call mouse (click button) "Unable to click button"
  end.

(** [App::try_release_mouse]. *)
Definition try_release_mouse (mouse : Mouse) (a : App)
  : Res (App * list MouseCall) :=
  if negb (mouse_is_pressed a) then Ok (a, [])
  else
    let button := button_key (mouse_button a) in
    match expect_call mouse (release button) "Unable to release button" with
    | Ok cs => Ok (set_mouse_is_pressed false a, cs)
    | Panic m => Panic m
    end.

(** ** Policies of one tick *)

Definition Rle_bool (x y : R) : bool := if Rle_dec x y then true else false.
Definition Rlt_bool (x y : R) : bool := if Rlt_dec x y then true else false.

(** [percentage_distance_between_colors]. *)
Definition percentage_distance_between_colors (a b : Color32) : R :=
  let distance_r := IZR (Z.abs (c_r a - c_r b)) in
  let distance_g := IZR (Z.abs (c_g a - c_g b)) in
  let distance_b := IZR (Z.abs (c_b a - c_b b)) in
  let distance := sqrt (distance_r ^ 2 + distance_g ^ 2 + distance_b ^ 2) in
  let percentage := distance / 441.672956 in
  percentage.

(** [should_click] in [click_loop]. *)
Definition should_click (a : App) : bool :=
  negb (color_mode a)
  || (color_mode a
      && Rle_bool (percentage_distance_between_colors
                     (hovering_pixel_color a) (color_mode_color a))
                  (color_mode_distance_threshold a)).

(** The [match app.limit_mode] of [click_loop]: [true] when it breaks. *)
Definition limit_reached (now : R) (a : App) : bool :=
  match limit_mode a with
  | LimitMode.Clicks => (limit_mode_clicks_amount a <=? total_clicks a)%Z
  | LimitMode.Time => Rle_bool (limit_mode_time a) (now - clicker_start_time a)
  | _ => false
  end.

(** [total_seconds] in [click_loop]. *)
Definition total_seconds (a : App) : R :=
  IZR (hours a) * 3600 + IZR (minutes a) * 60 + IZR (seconds a)
  + IZR (milliseconds a) / 1000.

(** [rng.gen_range(low..=high)] on [f64] (rand's [UniformFloat]): it asserts
    [low <= high] and scales a uniform draw [u] of [[0, 1]] onto the range. *)
Definition gen_range_inclusive (u low high : R) : Res R :=
  if Rle_bool low high then Ok (low + u * (high - low))
  else Panic "UniformSampler::sample_single_inclusive: low > high".

(** [time_to_wait] in [click_loop], for the draw [u]. *)
Definition time_to_wait (a : App) (u : R) : Res R :=
  match interval_mode a with
  | IntervalMode.Constant => Ok (total_seconds a)
  | IntervalMode.Random =>
      gen_range_inclusive u (interval_mode_random_min a)
                            (interval_mode_random_max a)
  end.

(** ** The loop *)

(** How one iteration of the [loop] in [click_loop] ends: [break], the
    [sleep(time_to_wait)] before the next iteration, or a panic. *)
Inductive Step :=
| Break (a : App)
| Sleep (a : App) (time_to_wait : R)
| Panicked (a : App) (msg : string).

Definition step_app (s : Step) : App :=
  match s with Break a | Sleep a _ | Panicked a _ => a end.

(** Gate, action, counter and delay: the part of an iteration after the
    limit check. *)
Definition tick_action (mouse : Mouse) (u : R) (a : App)
  : Step * list MouseCall :=
  if should_click a then
    let a1 := set_mouse_is_pressed (negb (mouse_is_pressed a)) a in
    match click_mouse mouse a1 with
    | Panic m => (Panicked a1 m, [])
    | Ok cs =>
        let a2 := set_total_clicks (wrap_u32 (total_clicks a1 + 1)) a1 in
        match time_to_wait a2 u with
        | Ok w => (Sleep a2 w, cs)
        | Panic m => (Panicked a2 m, cs)
        end
    end
  else
    match time_to_wait a u with
    | Ok w => (Sleep a w, [])
    | Panic m => (Panicked a m, [])
    end.

(** One iteration of the [loop] of [click_loop] by the instance that
    captured [id], at time [now], with the draw [u]; it runs with the lock
    held throughout. *)
Definition tick (mouse : Mouse) (now u : R) (id : Z) (a : App)
  : Step * list MouseCall :=
  if negb (clicker_enabled a) || negb (id =? clicker_id a)%Z then (Break a, [])
  else if limit_reached now a then (Break (set_clicker_enabled false a), [])
  else tick_action mouse u a.

(** The prologue of [click_loop]: reset the counters, bump [clicker_id] and
    capture it. *)
Definition click_loop_start (a : App) : App * Z :=
  let a1 := set_clicker_id (wrap_u32 (clicker_id a + 1))
              (set_mouse_is_pressed false (set_total_clicks 0 a)) in
  (a1, clicker_id a1).

(** The interleavings the loop runs below cover: while the loop sleeps,
    the UI or the F6 binding may stop the clicker, and the UI's pixel
    sampling ([autopilot::screen::get_color], [None] when it fails) updates
    [hovering_pixel_color] when color mode is on. They do not cover a UI
    frame that, after a stop, handles the falling edge with
    [try_release_mouse] (clearing [mouse_is_pressed]) before the loop wakes,
    nor a re-enable that lands before a new session's prologue: the
    properties of [run_loop] and [click_loop] are about the runs without
    them, and the pressed flag and the pointer calls are treated per
    iteration ([tick]), where no interleaving enters. *)
Record TickEnv := mkTickEnv {
  env_now : R;
  env_u : R;
  env_disable : bool;
  env_hover : option Color32
}.

Definition between_ticks (e : TickEnv) (a : App) : App :=
  let a1 := if env_disable e then set_clicker_enabled false a else a in
  if color_mode a1 then
    match env_hover e with
    | Some c => set_hovering_pixel_color c a1
    | None => a1
    end
  else a1.

(** Where a loop instance is after a list of iterations. *)
Inductive LoopRun :=
| Exited (a : App) (calls : list MouseCall)
| Died (a : App) (msg : string) (calls : list MouseCall)
| Waiting (a : App) (calls : list MouseCall).

Fixpoint run_loop (mouse : Mouse) (id : Z) (es : list TickEnv) (a : App)
  (acc : list MouseCall) : LoopRun :=
  match es with
  | [] => Waiting a acc
  | e :: es' =>
      let a' := between_ticks e a in
      match tick mouse (env_now e) (env_u e) id a' with
      | (Break a'', cs) => Exited a'' (acc ++ cs)
      | (Sleep a'' _, cs) => run_loop mouse id es' a'' (acc ++ cs)
      | (Panicked a'' m, cs) => Died a'' m (acc ++ cs)
      end
  end.

(** [click_loop] as a whole, over the iterations described by [es]. *)
Definition click_loop (mouse : Mouse) (es : list TickEnv) (a : App) : LoopRun :=
  let '(a1, id) := click_loop_start a in run_loop mouse id es a1 [].

(** The state a loop instance has reached. *)
Definition run_app (r : LoopRun) : App :=
  match r with Exited a _ | Died a _ _ | Waiting a _ => a end.

(** ** The lock *)

(** [Mutex<App>]: the state and the poison flag set when a thread panics
    while holding the guard. *)
Record Shared := mkShared { app_state : App; poisoned : bool }.

(** [self.main_app.lock().unwrap()] ([AppHolder::app] / [app_mut]). *)
Definition lock_unwrap (s : Shared) : Res App :=
  if poisoned s
  then Panic "called `Result::unwrap()` on an `Err` value: PoisonError"
  else Ok (app_state s).

(** One loop iteration on the shared state: lock, iterate, drop the guard
    (poisoning the lock when the iteration panicked). *)
Definition tick_shared (mouse : Mouse) (now u : R) (id : Z) (s : Shared)
  : Res (Step * list MouseCall * Shared) :=
  match lock_unwrap s with
  | Panic m => Panic m
  | Ok a =>
      let '(st, cs) := tick mouse now u id a in
      let p := match st with Panicked _ _ => true | _ => false end in
      Ok (st, cs, mkShared (step_app st) p)
  end.

(** ** The UI side *)

(** The edge-detection block at the end of the central panel of
    [AppHolder::update]: it returns the new state, whether [start_clicker]
    spawns a [click_loop], and the pointer calls made. *)
Definition update_edge (mouse : Mouse) (now : R) (a : App)
  : Res (App * bool * list MouseCall) :=
  let enabled_changed := negb (Bool.eqb (clicker_enabled a) (last_clicker_enabled a)) in
  if enabled_changed then
    let a1 := set_last_clicker_enabled (clicker_enabled a) a in
    if clicker_enabled a1 then Ok (set_clicker_start_time now a1, true, [])
    else
      match try_release_mouse mouse a1 with
      | Ok (a2, cs) => Ok (a2, false, cs)
      | Panic m => Panic m
      end
  else Ok (a, false, []).

(** The [KeybdKey::F6Key.bind] closure of [AppHolder::default]. *)
Definition f6_binding (a : App) : App :=
  set_clicker_enabled (negb (clicker_enabled a)) a.

(** [AppHolder::toggle_clicker], run by the in-window F6 shortcut of
    [update]. *)
Definition toggle_clicker (a : App) : App :=
  set_clicker_enabled (negb (clicker_enabled a)) a.

(** [f32::clamp]. *)
Definition f32_clamp (x min max : R) : Res R :=
  if Rle_bool min max then
    let x1 := if Rlt_bool x min then min else x in
    Ok (if Rlt_bool max x1 then max else x1)
  else Panic "min > max, or either was NaN".

(** The clamping of the random bounds in [update], done every frame before
    the two [DragValue]s are drawn. *)
Definition clamp_random_bounds (a : App) : Res App :=
  match f32_clamp (interval_mode_random_max a) 0 3600 with
  | Panic m => Panic m
  | Ok max =>
      match f32_clamp (interval_mode_random_min a) 0 max with
      | Panic m => Panic m
      | Ok min => Ok (set_interval_mode_random min max a)
      end
  end.

(** The mouse-button image button of [update]: each click moves to the
    next button. *)
Definition next_mouse_button (b : MouseButton.t) : MouseButton.t :=
  match b with
  | MouseButton.Left => MouseButton.Middle
  | MouseButton.Middle => MouseButton.Right
  | MouseButton.Right => MouseButton.Left
  end.

(** The [f64] values of the CPS estimate: a finite value, or the [+inf] of
    [1.0 / 0.0]. *)
Inductive F64 := Finite (r : R) | PosInf.

(** [1.0 / x] on [f64]. *)
Definition f64_one_div (x : R) : F64 :=
  if Rle_bool x 0 && Rle_bool 0 x then PosInf else Finite (1 / x).

(** [v as u32] on [f64]: truncation toward zero, saturating at both ends. *)
Definition f64_as_u32 (v : F64) : Z :=
  match v with
  | PosInf => 4294967295
  | Finite r =>
      if Rlt_bool r 0 then 0%Z
      else if Rle_bool 4294967295 r then 4294967295%Z
      else Int_part r
  end.

(** [total_seconds] of the CPS estimate in [update]. *)
Definition estimate_total_seconds (a : App) : R :=
  match interval_mode a with
  | IntervalMode.Constant =>
      IZR (hours a) * 3600 + IZR (minutes a) * 60 + IZR (seconds a)
      + IZR (milliseconds a) / 1000
  | IntervalMode.Random => interval_mode_random_min a
  end.

(** [cps] in [update]. *)
Definition cps (a : App) : Z := f64_as_u32 (f64_one_div (estimate_total_seconds a)).

(** The warning [update] shows under the interval settings. *)
Inductive Warning := NoWarning | MayLag | MayLagMuch.

Definition cps_warning (a : App) : Warning :=
  if (2000 <=? cps a)%Z then MayLagMuch
  else if (200 <=? cps a)%Z then MayLag
  else NoWarning.

(** The settings a loop instance reads but must leave to the UI. *)
Definition same_settings (a b : App) : Prop :=
  interval_mode a = interval_mode b /\ hours a = hours b
  /\ minutes a = minutes b /\ seconds a = seconds b
  /\ milliseconds a = milliseconds b
  /\ interval_mode_random_min a = interval_mode_random_min b
  /\ interval_mode_random_max a = interval_mode_random_max b
  /\ mouse_button a = mouse_button b /\ click_mode a = click_mode b
  /\ color_mode a = color_mode b /\ color_mode_color a = color_mode_color b
  /\ color_mode_distance_threshold a = color_mode_distance_threshold b
  /\ limit_mode a = limit_mode b
  /\ limit_mode_clicks_amount a = limit_mode_clicks_amount b
  /\ limit_mode_time a = limit_mode_time b
  /\ last_clicker_enabled a = last_clicker_enabled b
  /\ clicker_start_time a = clicker_start_time b.

(** The [App] built by [AppHolder::default] (with [Instant::now()] at 0). *)
Definition app_default : App :=
  {| interval_mode := IntervalMode.Constant; hours := 0; minutes := 0;
     seconds := 0; milliseconds := 100;
     interval_mode_random_min := 1; interval_mode_random_max := 2;
     mouse_button := MouseButton.Left; click_mode := ClickMode.Click;
     mouse_is_pressed := false; clicker_id := 0;
     color_mode := false; color_mode_color := Color32_BLACK;
     color_mode_distance_threshold := 0;
     hovering_pixel_color := Color32_BLACK;
     limit_mode := LimitMode.None; limit_mode_clicks_amount := 10;
     limit_mode_time := 1;
     clicker_enabled := false; last_clicker_enabled := false;
     clicker_start_time := 0; total_clicks := 0 |}.

(** A platform that accepts every pointer call, and one that rejects all. *)
Definition mouse_ok : Mouse := fun _ => true.
Definition mouse_denied : Mouse := fun _ => false.

(** The scenario of the spec: a constant interval of 50 ms, a limit of 5
    clicks, [Click] mode, started by the UI. *)
Definition app_clicks5 : App :=
  {| interval_mode := IntervalMode.Constant; hours := 0; minutes := 0;
     seconds := 0; milliseconds := 50;
     interval_mode_random_min := 1; interval_mode_random_max := 2;
     mouse_button := MouseButton.Left; click_mode := ClickMode.Click;
     mouse_is_pressed := false; clicker_id := 0;
     color_mode := false; color_mode_color := Color32_BLACK;
     color_mode_distance_threshold := 0;
     hovering_pixel_color := Color32_BLACK;
     limit_mode := LimitMode.Clicks; limit_mode_clicks_amount := 5;
     limit_mode_time := 1;
     clicker_enabled := true; last_clicker_enabled := true;
     clicker_start_time := 0; total_clicks := 0 |}.

(** [k] iterations with nothing happening in between. *)
Definition quiet_ticks (k : nat) : list TickEnv :=
  repeat (mkTickEnv 0 0 false None) k.

(** A running [Toggle] session with the button held, at a limit of one
    click. *)
Definition app_toggle_held : App :=
  {| interval_mode := IntervalMode.Constant; hours := 0; minutes := 0;
     seconds := 0; milliseconds := 100;
     interval_mode_random_min := 1; interval_mode_random_max := 2;
     mouse_button := MouseButton.Left; click_mode := ClickMode.Toggle;
     mouse_is_pressed := true; clicker_id := 1;
     color_mode := false; color_mode_color := Color32_BLACK;
     color_mode_distance_threshold := 0;
     hovering_pixel_color := Color32_BLACK;
     limit_mode := LimitMode.Clicks; limit_mode_clicks_amount := 1;
     limit_mode_time := 1;
     clicker_enabled := true; last_clicker_enabled := true;
     clicker_start_time := 0; total_clicks := 1 |}.

(** Color mode on, target black, threshold 1 (the slider's maximum), the
    cursor over the pixel (0, 0, 10). *)
Definition app_color : App :=
  {| interval_mode := IntervalMode.Constant; hours := 0; minutes := 0;
     seconds := 0; milliseconds := 100;
     interval_mode_random_min := 1; interval_mode_random_max := 2;
     mouse_button := MouseButton.Left; click_mode := ClickMode.Click;
     mouse_is_pressed := false; clicker_id := 1;
     color_mode := true; color_mode_color := Color32_BLACK;
     color_mode_distance_threshold := 1;
     hovering_pixel_color := mkColor32 0 0 10 255;
     limit_mode := LimitMode.None; limit_mode_clicks_amount := 10;
     limit_mode_time := 1;
     clicker_enabled := true; last_clicker_enabled := true;
     clicker_start_time := 0; total_clicks := 0 |}.

(** Color mode on with the threshold at 0, the cursor over the target. *)
Definition app_color_strict : App :=
  {| interval_mode := IntervalMode.Constant; hours := 0; minutes := 0;
     seconds := 0; milliseconds := 100;
     interval_mode_random_min := 1; interval_mode_random_max := 2;
     mouse_button := MouseButton.Left; click_mode := ClickMode.Click;
     mouse_is_pressed := false; clicker_id := 1;
     color_mode := true; color_mode_color := mkColor32 12 34 56 255;
     color_mode_distance_threshold := 0;
     hovering_pixel_color := mkColor32 12 34 56 255;
     limit_mode := LimitMode.None; limit_mode_clicks_amount := 10;
     limit_mode_time := 1;
     clicker_enabled := true; last_clicker_enabled := true;
     clicker_start_time := 0; total_clicks := 0 |}.

(** A running session with a time limit of 5 seconds started at 0. *)
Definition app_time5 : App :=
  {| interval_mode := IntervalMode.Constant; hours := 0; minutes := 0;
     seconds := 0; milliseconds := 100;
     interval_mode_random_min := 1; interval_mode_random_max := 2;
     mouse_button := MouseButton.Left; click_mode := ClickMode.Click;
     mouse_is_pressed := false; clicker_id := 1;
     color_mode := false; color_mode_color := Color32_BLACK;
     color_mode_distance_threshold := 0;
     hovering_pixel_color := Color32_BLACK;
     limit_mode := LimitMode.Time; limit_mode_clicks_amount := 10;
     limit_mode_time := 5;
     clicker_enabled := true; last_clicker_enabled := true;
     clicker_start_time := 0; total_clicks := 0 |}.

(** [Random] mode with the bounds 0.1 s and 0.5 s. *)
Definition app_random : App :=
  {| interval_mode := IntervalMode.Random; hours := 0; minutes := 0;
     seconds := 0; milliseconds := 100;
     interval_mode_random_min := 0.1; interval_mode_random_max := 0.5;
     mouse_button := MouseButton.Left; click_mode := ClickMode.Click;
     mouse_is_pressed := false; clicker_id := 0;
     color_mode := false; color_mode_color := Color32_BLACK;
     color_mode_distance_threshold := 0;
     hovering_pixel_color := Color32_BLACK;
     limit_mode := LimitMode.None; limit_mode_clicks_amount := 10;
     limit_mode_time := 1;
     clicker_enabled := false; last_clicker_enabled := false;
     clicker_start_time := 0; total_clicks := 0 |}.

(** ** Evaluation on small inputs *)

Example click_loop_start_default :
  snd (click_loop_start app_default) = 1%Z.
Proof. reflexivity. Qed.

Example first_tick_default :
  let '(a, id) := click_loop_start (set_clicker_enabled true app_default) in
  snd (tick mouse_ok 0 0 id a) = [click Keys.LEFT]
  /\ total_clicks (step_app (fst (tick mouse_ok 0 0 id a))) = 1%Z
  /\ mouse_is_pressed (step_app (fst (tick mouse_ok 0 0 id a))) = true.
Proof. vm_compute. repeat split. Qed.

(** ** Facts about the embedding *)

Lemma wrap_u32_small (x : Z) : (0 <= x < 2 ^ 32)%Z -> wrap_u32 x = x.
Proof. intros H. unfold wrap_u32. apply Z.mod_small. exact H. Qed.

(** The wait does not depend on the counters. *)
Lemma time_to_wait_counters (a : App) (u : R) (p : bool) (t : Z) :
  time_to_wait (set_total_clicks t (set_mouse_is_pressed p a)) u
  = time_to_wait a u.
Proof. reflexivity. Qed.

(** How an iteration that reaches the [sleep] changed the state. *)
Lemma tick_action_sleep (mouse : Mouse) (u : R) (a s : App) (w : R)
  (cs : list MouseCall) :
  tick_action mouse u a = (Sleep s w, cs) ->
  time_to_wait a u = Ok w /\
  ((should_click a = false /\ s = a /\ cs = [])
   \/ (should_click a = true
       /\ s = set_total_clicks (wrap_u32 (total_clicks a + 1))
                (set_mouse_is_pressed (negb (mouse_is_pressed a)) a)
       /\ click_mouse mouse (set_mouse_is_pressed (negb (mouse_is_pressed a)) a)
          = Ok cs)).
Proof.
  unfold tick_action.
  destruct (should_click a) eqn:G.
  - destruct (click_mouse mouse _) as [cs0|m] eqn:C; [|discriminate].
    rewrite time_to_wait_counters.
    destruct (time_to_wait a u) as [w0|m] eqn:W; [|discriminate].
    intros Heq; inversion Heq; subst. split; [reflexivity|].
    right. repeat split; reflexivity.
  - destruct (time_to_wait a u) as [w0|m] eqn:W; [|discriminate].
    intros Heq; inversion Heq; subst. split; [reflexivity|].
    left. repeat split; reflexivity.
Qed.

(** An iteration past the limit check never breaks. *)
Lemma tick_action_not_break (mouse : Mouse) (u : R) (a s : App)
  (cs : list MouseCall) :
  tick_action mouse u a <> (Break s, cs).
Proof.
  unfold tick_action.
  destruct (should_click a); [destruct (click_mouse mouse _)|];
    try destruct (time_to_wait _ u); discriminate.
Qed.

(** What an iteration past the limit check leaves untouched. *)
Lemma tick_action_frame (mouse : Mouse) (u : R) (a : App) :
  let s := step_app (fst (tick_action mouse u a)) in
  clicker_enabled s = clicker_enabled a /\ clicker_id s = clicker_id a
  /\ limit_mode s = limit_mode a
  /\ limit_mode_clicks_amount s = limit_mode_clicks_amount a
  /\ click_mode s = click_mode a
  /\ (total_clicks s = total_clicks a
      \/ total_clicks s = wrap_u32 (total_clicks a + 1)).
Proof.
  unfold tick_action.
  destruct (should_click a); [destruct (click_mouse mouse _)|];
    try destruct (time_to_wait _ u); cbn; auto 10.
Qed.

Lemma between_ticks_frame (e : TickEnv) (a : App) :
  let a' := between_ticks e a in
  total_clicks a' = total_clicks a /\ mouse_is_pressed a' = mouse_is_pressed a
  /\ clicker_id a' = clicker_id a /\ limit_mode a' = limit_mode a
  /\ limit_mode_clicks_amount a' = limit_mode_clicks_amount a
  /\ click_mode a' = click_mode a
  /\ clicker_enabled a' = clicker_enabled a && negb (env_disable e).
Proof.
  unfold between_ticks.
  destruct (env_disable e), (color_mode a) eqn:Hc, (env_hover e); cbn;
    rewrite ?Hc; cbn; rewrite ?andb_true_r, ?andb_false_r; auto 10.
Qed.

(** ** The click-count limit *)

Section ClickCount.
Variable n : Z.
Hypothesis n_u32 : (n < 2 ^ 32)%Z.

Definition clicks_inv (a : App) : Prop :=
  limit_mode a = LimitMode.Clicks /\ limit_mode_clicks_amount a = n
  /\ (0 <= total_clicks a <= n)%Z.

Lemma tick_clicks_inv (mouse : Mouse) (now u : R) (id : Z) (a : App)
  (st : Step) (cs : list MouseCall) :
  clicks_inv a -> tick mouse now u id a = (st, cs) -> clicks_inv (step_app st).
Proof.
  intros (Hl & Hn & Ht) T. unfold tick in T.
  destruct (negb _ || negb _); [inversion T; subst; split; auto|].
  destruct (limit_reached now a) eqn:L; [inversion T; subst; split; auto|].
  unfold limit_reached in L. rewrite Hl in L. apply Z.leb_gt in L.
  pose proof (tick_action_frame mouse u a) as F. rewrite T in F. cbn in F.
  destruct F as (_ & _ & Fl & Fn & _ & [Ft | Ft]);
    repeat split; try congruence; rewrite Ft; try lia.
  all: rewrite wrap_u32_small; lia.
Qed.

Lemma run_loop_clicks_inv (mouse : Mouse) (id : Z) (es : list TickEnv) :
  forall (a : App) (acc : list MouseCall),
  clicks_inv a -> clicks_inv (run_app (run_loop mouse id es a acc)).
Proof.
  induction es as [|e es IH]; intros a acc Ha; [exact Ha|].
  cbn [run_loop].
  assert (Hb : clicks_inv (between_ticks e a)).
  { destruct (between_ticks_frame e a) as (Ft & _ & _ & Fl & Fn & _).
    destruct Ha as (? & ? & ?). split; [congruence | split; congruence]. }
  destruct (tick mouse (env_now e) (env_u e) id (between_ticks e a))
    as [st cs] eqn:T.
  pose proof (tick_clicks_inv _ _ _ _ _ _ _ Hb T) as Hs.
  destruct st; cbn in *; auto.
Qed.

Lemma run_loop_clicks_exit (mouse : Mouse) (id : Z) (es : list TickEnv) :
  forall (a a' : App) (acc cs : list MouseCall),
  clicks_inv a -> clicker_enabled a = true -> clicker_id a = id ->
  Forall (fun e => env_disable e = false) es ->
  run_loop mouse id es a acc = Exited a' cs -> total_clicks a' = n.
Proof.
  induction es as [|e es IH]; intros a a' acc cs Ha He Hi Hd R;
    [discriminate|].
  inversion Hd as [|? ? Hd0 Hds]; subst.
  cbn [run_loop] in R.
  destruct (between_ticks_frame e a) as (Ft & _ & Fi & Fl & Fn & _ & Fe).
  rewrite He, Hd0 in Fe. cbn in Fe.
  assert (Hb : clicks_inv (between_ticks e a)).
  { destruct Ha as (? & ? & ?). split; [congruence | split; congruence]. }
  destruct (tick mouse (env_now e) (env_u e) (clicker_id a) (between_ticks e a))
    as [st cs0] eqn:T.
  pose proof (tick_clicks_inv _ _ _ _ _ _ _ Hb T) as Hs.
  unfold tick in T. rewrite Fe, Fi, Z.eqb_refl in T. cbn in T.
  destruct (limit_reached (env_now e) (between_ticks e a)) eqn:L.
  - inversion T; subst. inversion R; subst.
    destruct Hb as (Hl & Hn & Ht).
    unfold limit_reached in L. rewrite Hl, Hn in L. apply Z.leb_le in L.
    cbn. lia.
  - pose proof (tick_action_frame mouse (env_u e) (between_ticks e a)) as F.
    rewrite T in F. cbn in F. destruct F as (Ge & Gi & _).
    destruct st as [s|s w|s m].
    + exfalso. exact (tick_action_not_break _ _ _ _ _ T).
    + cbn in *. apply (IH s a' (acc ++ cs0) cs); auto; congruence.
    + discriminate.
Qed.
End ClickCount.

Example click_count_scenario :
  match click_loop mouse_ok (quiet_ticks 6) app_clicks5 with
  | Exited a cs =>
      total_clicks a = 5%Z /\ clicker_enabled a = false
      /\ cs = repeat (click Keys.LEFT) 5
  | _ => False
  end.
Proof. vm_compute. repeat split. Qed.

(** C2. With the limit [Clicks] at [n], the limit is checked at the top of
    each iteration before the action: an iteration that finds
    [total_clicks >= n] clears [clicker_enabled] and breaks without acting;
    the loop never counts more than [n] clicks; and a loop that ends without
    having been stopped by the UI ends with exactly [n] clicks. *)
Theorem click_count_limit (mouse : Mouse) (es : list TickEnv) (a : App)
  (Hl : limit_mode a = LimitMode.Clicks)
  (Hn : (0 <= limit_mode_clicks_amount a < 2 ^ 32)%Z) :
  (forall (now u : R) (id : Z) (b : App),
      clicker_enabled b = true -> clicker_id b = id ->
      limit_mode b = LimitMode.Clicks ->
      (limit_mode_clicks_amount b <= total_clicks b)%Z ->
      tick mouse now u id b = (Break (set_clicker_enabled false b), []))
  /\ (0 <= total_clicks (run_app (click_loop mouse es a))
        <= limit_mode_clicks_amount a)%Z
  /\ (forall (a' : App) (cs : list MouseCall),
        clicker_enabled a = true ->
        Forall (fun e => env_disable e = false) es ->
        click_loop mouse es a = Exited a' cs ->
        total_clicks a' = limit_mode_clicks_amount a).
Proof.
  assert (Hs : clicks_inv (limit_mode_clicks_amount a)
                 (fst (click_loop_start a))).
  { cbn [fst click_loop_start]. unfold clicks_inv, set_clicker_id, set_mouse_is_pressed, set_total_clicks. simpl.
    split; [exact Hl | split; [reflexivity | idtac]]. lia. }
  split; [|split].
  - intros now u id b He Hi Hb Ht. unfold tick.
    rewrite He, Hi, Z.eqb_refl. cbn.
    unfold limit_reached. rewrite Hb.
    apply Z.leb_le in Ht. rewrite Ht. reflexivity.
  - unfold click_loop. destruct (click_loop_start a) as [a1 id] eqn:S.
    cbn in Hs.
    apply (run_loop_clicks_inv _ (proj2 Hn) mouse id es a1 [] Hs).
  - intros a' cs He Hd R. unfold click_loop in R.
    destruct (click_loop_start a) as [a1 id] eqn:S. cbn in Hs.
    apply (run_loop_clicks_exit _ (proj2 Hn) mouse id es a1 a' [] cs Hs);
      auto.
    + injection S as <- _. exact He.
    + injection S as <- <-. reflexivity.
Qed.

Lemma click_count_limit_witness :
  limit_mode app_clicks5 = LimitMode.Clicks
  /\ (0 <= limit_mode_clicks_amount app_clicks5 < 2 ^ 32)%Z
  /\ (0 <= total_clicks (run_app (click_loop mouse_ok (quiet_ticks 3) app_clicks5))
        <= limit_mode_clicks_amount app_clicks5)%Z.
Proof.
  assert (Hl : limit_mode app_clicks5 = LimitMode.Clicks) by reflexivity.
  assert (Hn : (0 <= limit_mode_clicks_amount app_clicks5 < 2 ^ 32)%Z)
    by (change (limit_mode_clicks_amount app_clicks5) with 5%Z; lia).
  split; [exact Hl|]. split; [exact Hn|].
  exact (proj1 (proj2
    (click_count_limit mouse_ok (quiet_ticks 3) app_clicks5 Hl Hn))).
Defined.

(** ** The pressed flag *)

Lemma try_release_mouse_released (mouse : Mouse) (a a' : App)
  (cs : list MouseCall) :
  try_release_mouse mouse a = Ok (a', cs) -> mouse_is_pressed a' = false.
Proof.
  unfold try_release_mouse.
  destruct (mouse_is_pressed a) eqn:P; cbn.
  - destruct (expect_call _ _ _); intros H; inversion H; reflexivity.
  - intros H; inversion H; subst; exact P.
Qed.

(** C4 (counterexample). In [Click] mode the flag is flipped too: after the
    first click of a session it is [true]. *)
Lemma button_pressed_click_mode_counterexample :
  let '(a, id) := click_loop_start (set_clicker_enabled true app_default) in
  click_mode a = ClickMode.Click
  /\ snd (tick mouse_ok 0 0 id a) = [click Keys.LEFT]
  /\ mouse_is_pressed (step_app (fst (tick mouse_ok 0 0 id a))) = true.
Proof. vm_compute. repeat split. Qed.

Lemma tick_sleep_action (mouse : Mouse) (now u : R) (id : Z) (b s : App)
  (w : R) (cs : list MouseCall) :
  tick mouse now u id b = (Sleep s w, cs) -> tick_action mouse u b = (Sleep s w, cs).
Proof.
  unfold tick.
  destruct (negb _ || negb _); [discriminate|].
  destruct (limit_reached now b); [discriminate | intros H; exact H].
Qed.

(** C4 (amended). In every click mode, an iteration that fires flips the
    flag and one that does not fire leaves it as it is; in [Toggle] mode a
    fire that sets it issues a press of the chosen button and one that
    clears it a release; and the forced release of a stop
    ([try_release_mouse]) leaves it [false]. *)
Theorem button_pressed_flips (mouse : Mouse) :
  (forall (now u : R) (id : Z) (b s : App) (w : R) (cs : list MouseCall),
     tick mouse now u id b = (Sleep s w, cs) ->
     mouse_is_pressed s
     = if should_click b then negb (mouse_is_pressed b) else mouse_is_pressed b)
  /\ (forall (now u : R) (id : Z) (b s : App) (w : R) (cs : list MouseCall),
        click_mode b = ClickMode.Toggle -> should_click b = true ->
        tick mouse now u id b = (Sleep s w, cs) ->
        cs = [if mouse_is_pressed s then press (button_key (mouse_button b))
              else release (button_key (mouse_button b))])
  /\ (forall (b b' : App) (cs : list MouseCall),
        try_release_mouse mouse b = Ok (b', cs) -> mouse_is_pressed b' = false).
Proof.
  split; [|split].
  - intros now u id b s w cs T. apply tick_sleep_action in T.
    destruct (tick_action_sleep _ _ _ _ _ _ T)
      as (_ & [(-> & -> & _) | (-> & -> & _)]); reflexivity.
  - intros now u id b s w cs Hm Hg T. apply tick_sleep_action in T.
    destruct (tick_action_sleep _ _ _ _ _ _ T) as (_ & [(Hg' & _) | (_ & -> & C)]);
      [congruence|].
    unfold click_mouse in C. cbn in C. rewrite Hm in C.
    destruct (mouse_is_pressed b); cbn in C; unfold expect_call in C;
      destruct (mouse _); inversion C; reflexivity.
  - exact (try_release_mouse_released mouse).
Qed.

(** ** Session supersession *)

Lemma click_loop_start_new_id (a : App) :
  (0 <= clicker_id a < 2 ^ 32)%Z -> snd (click_loop_start a) <> clicker_id a.
Proof.
  intros H. cbn. unfold wrap_u32.
  destruct (Z.eq_dec (clicker_id a + 1) (2 ^ 32)) as [E|E].
  - rewrite E, Z_mod_same_full. lia.
  - rewrite Z.mod_small by lia. lia.
Qed.

(** C5. Starting a session gives [clicker_id] a new value; a loop instance
    that, at the top of its next iteration, finds [clicker_enabled] false or
    [clicker_id] different from the one it captured breaks there: it makes
    no pointer call and leaves [total_clicks] and [mouse_is_pressed] as they
    were. *)
Theorem superseded_instance_inert (mouse : Mouse) (id : Z) (e : TickEnv)
  (es : list TickEnv) (a : App) (acc : list MouseCall)
  (H : clicker_enabled (between_ticks e a) = false
       \/ id <> clicker_id (between_ticks e a)) :
  run_loop mouse id (e :: es) a acc = Exited (between_ticks e a) acc
  /\ total_clicks (between_ticks e a) = total_clicks a
  /\ mouse_is_pressed (between_ticks e a) = mouse_is_pressed a
  /\ (forall b : App, (0 <= clicker_id b < 2 ^ 32)%Z ->
        snd (click_loop_start b) <> clicker_id b).
Proof.
  destruct (between_ticks_frame e a) as (Ft & Fp & _).
  assert (T : tick mouse (env_now e) (env_u e) id (between_ticks e a)
              = (Break (between_ticks e a), [])).
  { unfold tick. destruct H as [H|H].
    - rewrite H. reflexivity.
    - apply Z.eqb_neq in H. rewrite H, orb_true_r. reflexivity. }
  split; [|split; [exact Ft | split; [exact Fp | exact click_loop_start_new_id]]].
  cbn [run_loop]. rewrite T, app_nil_r. reflexivity.
Qed.

Lemma superseded_instance_inert_witness :
  7%Z <> clicker_id (between_ticks (mkTickEnv 0 0 false None) app_toggle_held)
  /\ run_loop mouse_ok 7 (mkTickEnv 0 0 false None :: quiet_ticks 2)
       app_toggle_held []
     = Exited (between_ticks (mkTickEnv 0 0 false None) app_toggle_held) [].
Proof.
  assert (H : 7%Z <> clicker_id (between_ticks (mkTickEnv 0 0 false None)
                                   app_toggle_held))
    by (vm_compute; discriminate).
  split; [exact H|].
  exact (proj1 (superseded_instance_inert mouse_ok 7 (mkTickEnv 0 0 false None)
                  (quiet_ticks 2) app_toggle_held [] (or_intror H))).
Defined.

(** ** Stopping at the limit *)

(** C6 (counterexample). The iteration that finds the limit reached in a
    [Toggle] session with the button held breaks without any pointer call,
    the button still held; if the global F6 binding re-enables the clicker
    before the UI's next frame, the UI's edge detection sees no change and
    releases nothing. *)
Lemma limit_stop_counterexample :
  let '(st, cs) := tick mouse_ok 0 0 1 app_toggle_held in
  cs = [] /\ mouse_is_pressed (step_app st) = true
  /\ clicker_enabled (step_app st) = false
  /\ update_edge mouse_ok 0 (f6_binding (step_app st))
     = Ok (f6_binding (step_app st), false, [])
  /\ mouse_is_pressed (f6_binding (step_app st)) = true.
Proof. vm_compute. repeat split. Qed.

(** C6 (amended). When the limit check says stop, the iteration clears
    [clicker_enabled] and breaks, leaving [mouse_is_pressed] as it is and
    making no pointer call; the release is the UI's: when [update] sees
    [clicker_enabled] turned false (against [last_clicker_enabled]) it runs
    [try_release_mouse], which releases the button when it was pressed and
    leaves [mouse_is_pressed] false. *)
Theorem limit_stop_release_by_ui (mouse : Mouse) (now u : R) (id : Z) (a : App)
  (He : clicker_enabled a = true) (Hi : clicker_id a = id)
  (Hl : limit_reached now a = true) :
  tick mouse now u id a = (Break (set_clicker_enabled false a), [])
  /\ mouse_is_pressed (set_clicker_enabled false a) = mouse_is_pressed a
  /\ (forall (mouse' : Mouse) (now' : R),
        last_clicker_enabled a = true ->
        mouse' (release (button_key (mouse_button a))) = true ->
        exists a2 : App,
          update_edge mouse' now' (set_clicker_enabled false a)
          = Ok (a2, false, if mouse_is_pressed a
                           then [release (button_key (mouse_button a))] else [])
          /\ mouse_is_pressed a2 = false /\ clicker_enabled a2 = false
          /\ last_clicker_enabled a2 = false).
Proof.
  split; [|split; [reflexivity|]].
  - unfold tick. rewrite He, Hi, Z.eqb_refl, Hl. reflexivity.
  - intros mouse' now' Hlast Hrel.
    unfold update_edge. cbn [clicker_enabled last_clicker_enabled
      set_clicker_enabled]. rewrite Hlast. cbn.
    unfold try_release_mouse. cbn.
    destruct (mouse_is_pressed a) eqn:P; cbn.
    + unfold expect_call. rewrite Hrel.
      eexists. split; [reflexivity|]. cbn. auto.
    + eexists. split; [reflexivity|]. cbn. auto.
Qed.

Lemma limit_stop_release_by_ui_witness :
  clicker_enabled app_toggle_held = true /\ clicker_id app_toggle_held = 1%Z
  /\ limit_reached 0 app_toggle_held = true
  /\ tick mouse_ok 0 0 1 app_toggle_held
     = (Break (set_clicker_enabled false app_toggle_held), []).
Proof.
  assert (He : clicker_enabled app_toggle_held = true) by reflexivity.
  assert (Hi : clicker_id app_toggle_held = 1%Z) by reflexivity.
  assert (Hl : limit_reached 0 app_toggle_held = true) by reflexivity.
  split; [exact He | split; [exact Hi | split; [exact Hl|]]].
  exact (proj1 (limit_stop_release_by_ui mouse_ok 0 0 1 app_toggle_held He Hi Hl)).
Defined.

(** ** Gated iterations *)

(** C9. The limit is checked before the gate: an iteration that finds the
    limit reached breaks with no pointer call whatever the gate says. An
    iteration whose gate says no makes no pointer call, changes nothing, and
    still sleeps for [time_to_wait]; and every iteration that reaches the
    sleep waits [time_to_wait] of the state it started from, whether it
    fired or not. *)
Theorem gated_tick_keeps_rate (mouse : Mouse) (now u : R) (id : Z) (a : App)
  (He : clicker_enabled a = true) (Hi : clicker_id a = id) :
  (limit_reached now a = true ->
     tick mouse now u id a = (Break (set_clicker_enabled false a), []))
  /\ (limit_reached now a = false -> should_click a = false ->
        forall w : R, time_to_wait a u = Ok w ->
        tick mouse now u id a = (Sleep a w, []))
  /\ (limit_reached now a = false ->
        forall (s : App) (w : R) (cs : list MouseCall),
        tick mouse now u id a = (Sleep s w, cs) -> time_to_wait a u = Ok w).
Proof.
  assert (T : tick mouse now u id a
              = if limit_reached now a then (Break (set_clicker_enabled false a), [])
                else tick_action mouse u a).
  { unfold tick. rewrite He, Hi, Z.eqb_refl. reflexivity. }
  split; [|split].
  - intros L. rewrite T, L. reflexivity.
  - intros L G w W. rewrite T, L. unfold tick_action. rewrite G, W. reflexivity.
  - intros L s w cs S. rewrite T, L in S.
    exact (proj1 (tick_action_sleep _ _ _ _ _ _ S)).
Qed.

Lemma gated_tick_keeps_rate_witness :
  clicker_enabled app_clicks5 = true /\ clicker_id app_clicks5 = 0%Z
  /\ tick mouse_ok 0 0 0 (set_total_clicks 5 app_clicks5)
     = (Break (set_clicker_enabled false (set_total_clicks 5 app_clicks5)), []).
Proof.
  assert (He : clicker_enabled (set_total_clicks 5 app_clicks5) = true)
    by reflexivity.
  assert (Hi : clicker_id (set_total_clicks 5 app_clicks5) = 0%Z)
    by reflexivity.
  split; [reflexivity | split; [reflexivity|]].
  exact (proj1 (gated_tick_keeps_rate mouse_ok 0 0 0
                  (set_total_clicks 5 app_clicks5) He Hi) eq_refl).
Defined.

(** ** The two F6 handlers *)

Lemma update_edge_enabled (mouse : Mouse) (now : R) (a a' : App) (spawn : bool)
  (cs : list MouseCall) :
  update_edge mouse now a = Ok (a', spawn, cs) ->
  clicker_enabled a' = clicker_enabled a.
Proof.
  unfold update_edge.
  destruct (negb (Bool.eqb _ _)).
  - cbn. destruct (clicker_enabled a) eqn:E; cbn.
    + intros H; inversion H; subst. cbn. exact E.
    + unfold try_release_mouse. cbn.
      destruct (mouse_is_pressed a); cbn.
      * destruct (expect_call _ _ _); intros H; inversion H; subst; cbn; exact E.
      * intros H; inversion H; subst. cbn. exact E.
  - intros H; inversion H; reflexivity.
Qed.

(** C10. An F6 press seen both by the global binding and by the window's
    shortcut runs two toggles of [clicker_enabled]: together they give back
    the state they started from, also when the UI's edge detection runs
    between them. *)
Theorem f6_double_toggle (a : App) :
  toggle_clicker (f6_binding a) = a
  /\ (forall (mouse : Mouse) (now : R) (a' : App) (spawn : bool)
        (cs : list MouseCall),
        update_edge mouse now (f6_binding a) = Ok (a', spawn, cs) ->
        clicker_enabled (toggle_clicker a') = clicker_enabled a).
Proof.
  split.
  - destruct a as [? ? ? ? ? ? ? ? ? ? ? ? ? ? ? ? ? ? e ? ? ?].
    unfold toggle_clicker, f6_binding, set_clicker_enabled. cbn.
    rewrite negb_involutive. reflexivity.
  - intros mouse now a' spawn cs U.
    apply update_edge_enabled in U. cbn. rewrite U. cbn.
    apply negb_involutive.
Qed.

(** ** Click modes *)

(** C7 (counterexample). [ClickMode] has two variants, and no action
    issues two clicks. *)
Lemma click_mode_counterexample :
  List.length ClickMode.iter = 2%nat
  /\ ~ (exists (mouse : Mouse) (a : App) (k : Keys.t),
          click_mouse mouse a = Ok [click k; click k]).
Proof.
  split; [reflexivity|].
  intros (mouse & a & k & C). unfold click_mouse in C.
  destruct (click_mode a); [|destruct (mouse_is_pressed a)];
    unfold expect_call in C; destruct (mouse _); discriminate.
Qed.

(** C7 (amended). The click modes are [Click] and [Toggle]; an action that
    succeeds makes exactly one pointer call: in [Click] mode the library's
    [click] (its own press and release), in [Toggle] mode a press when
    [mouse_is_pressed] is set and a release otherwise. *)
Theorem click_mode_actions :
  ClickMode.iter = [ClickMode.Click; ClickMode.Toggle]
  /\ (forall m : ClickMode.t, In m ClickMode.iter)
  /\ (forall (mouse : Mouse) (a : App) (cs : list MouseCall),
        click_mouse mouse a = Ok cs ->
        cs = [match click_mode a with
              | ClickMode.Click => click (button_key (mouse_button a))
              | ClickMode.Toggle =>
                  if mouse_is_pressed a then press (button_key (mouse_button a))
                  else release (button_key (mouse_button a))
              end]).
Proof.
  split; [reflexivity | split].
  - intros []; cbn; auto.
  - intros mouse a cs C. unfold click_mouse in C.
    destruct (click_mode a); [|destruct (mouse_is_pressed a)];
      unfold expect_call in C; destruct (mouse _); inversion C; reflexivity.
Qed.

(** ** A rejected pointer call *)

(** C3 (counterexample). With a platform that rejects pointer calls, the
    first fire of a running session panics: [clicker_enabled] stays [true]
    and the lock is poisoned, so the UI's next [lock().unwrap()] panics. *)
Lemma pointer_failure_counterexample :
  let '(a, id) := click_loop_start (set_clicker_enabled true app_default) in
  match tick_shared mouse_denied 0 0 id (mkShared a false) with
  | Ok (Panicked a' m, cs, s') =>
      m = "Unable to click button"%string /\ cs = []
      /\ clicker_enabled a' = true
      /\ lock_unwrap s'
         = Panic "called `Result::unwrap()` on an `Err` value: PoisonError"
  | _ => False
  end.
Proof. vm_compute. repeat split. Qed.

(** C3 (amended). When the pointer library reports an error on the call of
    a fire, [click_mouse]'s [expect] panics in the loop thread while it
    holds the lock: the call is not retried, [clicker_enabled] is left
    [true], the lock is poisoned, and every later [lock().unwrap()] (the
    UI's included) panics. *)
Theorem pointer_failure_panics (mouse : Mouse) (now u : R) (id : Z) (a : App)
  (m : string)
  (He : clicker_enabled a = true) (Hi : clicker_id a = id)
  (Hl : limit_reached now a = false) (Hg : should_click a = true)
  (Hm : click_mouse mouse (set_mouse_is_pressed (negb (mouse_is_pressed a)) a)
        = Panic m) :
  let a1 := set_mouse_is_pressed (negb (mouse_is_pressed a)) a in
  tick_shared mouse now u id (mkShared a false)
  = Ok (Panicked a1 m, [], mkShared a1 true)
  /\ clicker_enabled a1 = true
  /\ lock_unwrap (mkShared a1 true)
     = Panic "called `Result::unwrap()` on an `Err` value: PoisonError".
Proof.
  cbn zeta. split; [|split; [exact He | reflexivity]].
  unfold tick_shared, lock_unwrap. cbn [poisoned app_state].
  unfold tick. rewrite He, Hi, Z.eqb_refl, Hl. cbn.
  unfold tick_action. rewrite Hg, Hm. reflexivity.
Qed.

Lemma pointer_failure_panics_witness :
  let a := fst (click_loop_start (set_clicker_enabled true app_default)) in
  tick_shared mouse_denied 0 0 1 (mkShared a false)
  = Ok (Panicked (set_mouse_is_pressed true a) "Unable to click button", [],
        mkShared (set_mouse_is_pressed true a) true).
Proof.
  cbn zeta.
  exact (proj1 (pointer_failure_panics mouse_denied 0 0 1
    (fst (click_loop_start (set_clicker_enabled true app_default)))
    "Unable to click button" eq_refl eq_refl eq_refl eq_refl eq_refl)).
Defined.

(** ** The random interval *)

Lemma f32_clamp_within (x min max : R) :
  min <= max -> exists y, f32_clamp x min max = Ok y /\ min <= y <= max.
Proof.
  intros H. unfold f32_clamp, Rle_bool, Rlt_bool.
  destruct (Rle_dec min max) as [_|N]; [|contradiction].
  destruct (Rlt_dec x min); [destruct (Rlt_dec max min)|destruct (Rlt_dec max x)];
    eexists; (split; [reflexivity|]); lra.
Qed.

Lemma gen_range_inclusive_within (u low high w : R) :
  0 <= u <= 1 -> gen_range_inclusive u low high = Ok w -> low <= w <= high.
Proof.
  intros Hu. unfold gen_range_inclusive, Rle_bool.
  destruct (Rle_dec low high) as [H|H]; [|discriminate].
  intros E. inversion E; subst. nra.
Qed.

(** C8. The clamping of [update] never panics and leaves
    [0 <= min <= max <= 3600]; a [Random] wait drawn from [u] in [[0, 1]]
    lies in [[min, max]]; and when [min = max] the wait is that value
    whatever the draw, as in [Constant] mode with the same total. *)
Theorem random_interval_bounds :
  (forall a : App, exists a', clamp_random_bounds a = Ok a')
  /\ (forall a a' : App, clamp_random_bounds a = Ok a' ->
        0 <= interval_mode_random_min a' <= interval_mode_random_max a'
        /\ interval_mode_random_max a' <= 3600)
  /\ (forall (a : App) (u w : R), 0 <= u <= 1 ->
        interval_mode a = IntervalMode.Random -> time_to_wait a u = Ok w ->
        interval_mode_random_min a <= w <= interval_mode_random_max a)
  /\ (forall (a b : App) (u v : R),
        interval_mode a = IntervalMode.Random ->
        interval_mode_random_min a = interval_mode_random_max a ->
        interval_mode b = IntervalMode.Constant ->
        total_seconds b = interval_mode_random_min a ->
        time_to_wait a u = Ok (interval_mode_random_min a)
        /\ time_to_wait a u = time_to_wait b v).
Proof.
  assert (C : forall a : App, exists min max,
             clamp_random_bounds a = Ok (set_interval_mode_random min max a)
             /\ 0 <= min <= max /\ max <= 3600).
  { intros a. unfold clamp_random_bounds.
    destruct (f32_clamp_within (interval_mode_random_max a) 0 3600)
      as (max & E1 & H1); [lra|]. rewrite E1.
    destruct (f32_clamp_within (interval_mode_random_min a) 0 max)
      as (min & E2 & H2); [lra|]. rewrite E2.
    exists min, max. split; [reflexivity | lra]. }
  split; [|split; [|split]].
  - intros a. destruct (C a) as (min & max & E & _). eexists. exact E.
  - intros a a' E. destruct (C a) as (min & max & E' & H).
    rewrite E' in E. inversion E; subst. cbn. lra.
  - intros a u w Hu Hm W. unfold time_to_wait in W. rewrite Hm in W.
    exact (gen_range_inclusive_within _ _ _ _ Hu W).
  - intros a b u v Ha Heq Hb Ht.
    assert (W : time_to_wait a u = Ok (interval_mode_random_min a)).
    { unfold time_to_wait, gen_range_inclusive, Rle_bool. rewrite Ha, <- Heq.
      destruct (Rle_dec _ _) as [_|N]; [|exfalso; apply N; lra].
      f_equal. ring. }
    split; [exact W|]. rewrite W.
    unfold time_to_wait. rewrite Hb, Ht. reflexivity.
Qed.

(** ** The color gate *)

Lemma distance_0_0_10 :
  percentage_distance_between_colors (mkColor32 0 0 10 255) Color32_BLACK
  = 10 / 441.672956.
Proof.
  unfold percentage_distance_between_colors. cbn [c_r c_g c_b Color32_BLACK].
  replace (IZR (Z.abs (0 - 0)) ^ 2 + IZR (Z.abs (0 - 0)) ^ 2
           + IZR (Z.abs (10 - 0)) ^ 2) with (10 * 10)
    by (cbn; ring).
  rewrite sqrt_square by lra. reflexivity.
Qed.

(** C1 (counterexample). The threshold is compared with the distance as it
    is, not divided by 255: with the threshold at 1 the cursor over
    (0, 0, 10) passes the gate for a black target, although its distance is
    above 1/255. *)
Lemma color_gate_counterexample :
  color_mode app_color = true
  /\ should_click app_color = true
  /\ color_mode_distance_threshold app_color / 255
     < percentage_distance_between_colors (hovering_pixel_color app_color)
         (color_mode_color app_color).
Proof.
  change (hovering_pixel_color app_color) with (mkColor32 0 0 10 255).
  change (color_mode_color app_color) with Color32_BLACK.
  change (color_mode_distance_threshold app_color) with 1.
  split; [reflexivity|]. split.
  - unfold should_click, Rle_bool. cbn [color_mode app_color negb orb andb].
    change (hovering_pixel_color app_color) with (mkColor32 0 0 10 255).
    change (color_mode_color app_color) with Color32_BLACK.
    change (color_mode_distance_threshold app_color) with 1.
    rewrite distance_0_0_10.
    destruct (Rle_dec _ _) as [_|N]; [reflexivity | exfalso; apply N; lra].
  - rewrite distance_0_0_10. lra.
Qed.

(** C1 (amended). With color mode off every iteration fires; with it on,
    an iteration fires exactly when
    [sqrt(dr^2 + dg^2 + db^2) / 441.672956] is at most
    [color_mode_distance_threshold], the slider's value in [[0, 1]] taken
    as it is. *)
Theorem should_click_iff (a : App) :
  should_click a = true
  <-> color_mode a = false
      \/ percentage_distance_between_colors (hovering_pixel_color a)
           (color_mode_color a) <= color_mode_distance_threshold a.
Proof.
  unfold should_click, Rle_bool.
  destruct (color_mode a); cbn;
    [destruct (Rle_dec _ _) as [H|H]|]; split; intros X; auto;
    try destruct X as [X|X]; try discriminate; try contradiction.
Qed.

(** * Further properties of the code *)

(** ** The mouse-button selector *)

(** The image button cycles Left, Middle, Right and back: three clicks
    return to the start, a click always changes the button, and distinct
    buttons drive distinct keys. *)
Theorem mouse_button_cycle :
  (forall b, next_mouse_button (next_mouse_button (next_mouse_button b)) = b)
  /\ (forall b, next_mouse_button b <> b)
  /\ (forall b b', button_key b = button_key b' -> b = b').
Proof.
  split; [|split].
  - intros []; reflexivity.
  - intros []; discriminate.
  - intros [] []; cbn; congruence.
Qed.

(** ** Edge detection in [update] *)

(** A frame spawns a loop exactly on a rising edge of [clicker_enabled]; it
    then records the start time and makes no pointer call. *)
Theorem update_edge_spawns_on_rise (mouse : Mouse) (now : R) (a : App) :
  (clicker_enabled a = true -> last_clicker_enabled a = false ->
     update_edge mouse now a
     = Ok (set_clicker_start_time now (set_last_clicker_enabled true a), true, []))
  /\ (forall (a' : App) (spawn : bool) (cs : list MouseCall),
        update_edge mouse now a = Ok (a', spawn, cs) ->
        spawn = clicker_enabled a && negb (last_clicker_enabled a)).
Proof.
  split.
  - intros He Hl. unfold update_edge. rewrite He, Hl. cbn. rewrite He. reflexivity.
  - intros a' spawn cs U.
    unfold update_edge, try_release_mouse, expect_call in U. cbn in U.
    destruct (clicker_enabled a), (last_clicker_enabled a),
      (mouse_is_pressed a); cbn in U;
      try destruct (mouse _); inversion U; reflexivity.
Qed.

(** A frame consumes the edge it sees: afterwards [last_clicker_enabled]
    equals [clicker_enabled], and the next frame, with no toggle in between,
    changes nothing, spawns nothing and makes no pointer call. *)
Theorem update_edge_consumes_edge (mouse mouse' : Mouse) (now now' : R)
  (a a' : App) (spawn : bool) (cs : list MouseCall)
  (U : update_edge mouse now a = Ok (a', spawn, cs)) :
  last_clicker_enabled a' = clicker_enabled a'
  /\ update_edge mouse' now' a' = Ok (a', false, []).
Proof.
  assert (L : last_clicker_enabled a' = clicker_enabled a').
  { rewrite (update_edge_enabled _ _ _ _ _ _ U).
    unfold update_edge, try_release_mouse, expect_call in U. cbn in U.
    destruct (clicker_enabled a) eqn:E, (last_clicker_enabled a) eqn:F,
      (mouse_is_pressed a); cbn in U;
      try destruct (mouse _); inversion U; subst; cbn; congruence. }
  split; [exact L|].
  unfold update_edge. rewrite L, eqb_reflx. reflexivity.
Qed.

Lemma update_edge_consumes_edge_witness :
  update_edge mouse_ok 0 app_toggle_held = Ok (app_toggle_held, false, [])
  /\ last_clicker_enabled app_toggle_held = clicker_enabled app_toggle_held.
Proof.
  assert (U : update_edge mouse_ok 0 app_toggle_held
              = Ok (app_toggle_held, false, [])) by reflexivity.
  split; [exact U|].
  exact (proj1 (update_edge_consumes_edge mouse_ok mouse_ok 0 0
                  app_toggle_held app_toggle_held false [] U)).
Defined.

(** ** The forced release *)

(** [try_release_mouse] makes no call when the button is not pressed, one
    release of the configured button when it is, and a second release right
    after the first makes no call. *)
Theorem try_release_mouse_once (mouse mouse' : Mouse) (a : App) :
  (mouse_is_pressed a = false -> try_release_mouse mouse a = Ok (a, []))
  /\ (mouse_is_pressed a = true ->
        mouse (release (button_key (mouse_button a))) = true ->
        try_release_mouse mouse a
        = Ok (set_mouse_is_pressed false a,
              [release (button_key (mouse_button a))]))
  /\ (forall (a' : App) (cs : list MouseCall),
        try_release_mouse mouse a = Ok (a', cs) ->
        try_release_mouse mouse' a' = Ok (a', [])).
Proof.
  split; [|split].
  - intros P. unfold try_release_mouse. rewrite P. reflexivity.
  - intros P M. unfold try_release_mouse, expect_call. rewrite P, M.
    reflexivity.
  - intros a' cs T. unfold try_release_mouse.
    rewrite (try_release_mouse_released _ _ _ _ T). reflexivity.
Qed.

(** ** The per-frame clamp *)

Lemma f32_clamp_fixed (x min max : R) :
  min <= x <= max -> f32_clamp x min max = Ok x.
Proof.
  intros H. unfold f32_clamp, Rle_bool, Rlt_bool.
  destruct (Rle_dec min max) as [_|N]; [|exfalso; apply N; lra].
  destruct (Rlt_dec x min); [lra|].
  destruct (Rlt_dec max x); [lra|]. reflexivity.
Qed.

(** The clamp that [update] applies to the random bounds on every frame is
    idempotent: a frame without edits leaves clamped bounds as they are. *)
Theorem clamp_random_bounds_idempotent (a a' : App) :
  clamp_random_bounds a = Ok a' -> clamp_random_bounds a' = Ok a'.
Proof.
  unfold clamp_random_bounds at 1. intros E.
  destruct (f32_clamp_within (interval_mode_random_max a) 0 3600)
    as (max & E1 & H1); [lra|]. rewrite E1 in E.
  destruct (f32_clamp_within (interval_mode_random_min a) 0 max)
    as (min & E2 & H2); [lra|]. rewrite E2 in E.
  inversion E; subst a'. unfold clamp_random_bounds. cbn.
  rewrite (f32_clamp_fixed max 0 3600) by lra.
  rewrite (f32_clamp_fixed min 0 max) by lra. reflexivity.
Qed.

Lemma clamp_random_bounds_idempotent_witness :
  clamp_random_bounds app_default = Ok app_default
  /\ clamp_random_bounds app_default = Ok app_default.
Proof.
  assert (E : clamp_random_bounds app_default = Ok app_default).
  { unfold clamp_random_bounds. cbn [interval_mode_random_max
      interval_mode_random_min app_default].
    rewrite (f32_clamp_fixed 2 0 3600) by lra.
    rewrite (f32_clamp_fixed 1 0 2) by lra. reflexivity. }
  split; [exact E|].
  exact (clamp_random_bounds_idempotent app_default app_default E).
Defined.

(** ** The CPS warning *)

Lemma Int_part_ge (k : Z) (r : R) : (k <= Int_part r)%Z <-> IZR k <= r.
Proof.
  destruct (base_Int_part r) as [H1 H2]. split; intros H.
  - apply IZR_le in H. lra.
  - assert (L : IZR (k - 1) < IZR (Int_part r)) by (rewrite minus_IZR; lra).
    apply lt_IZR in L. lia.
Qed.

Lemma estimate_constant_ms (a : App) :
  interval_mode a = IntervalMode.Constant ->
  estimate_total_seconds a
  = IZR (3600000 * hours a + 60000 * minutes a + 1000 * seconds a
         + milliseconds a) / 1000.
Proof.
  intros Hm. unfold estimate_total_seconds. rewrite Hm.
  rewrite !plus_IZR, !mult_IZR. field.
Qed.

(** In [Constant] mode, with the interval worth [n] milliseconds, [update]
    shows the red "may lag much" warning exactly when [n = 0], the yellow
    "may lag" warning exactly when [1 <= n <= 5], and none from 6 ms on. *)
Theorem cps_warning_constant (a : App)
  (Hm : interval_mode a = IntervalMode.Constant)
  (Hu : (0 <= hours a /\ 0 <= minutes a /\ 0 <= seconds a
         /\ 0 <= milliseconds a)%Z) :
  let n := (3600000 * hours a + 60000 * minutes a + 1000 * seconds a
            + milliseconds a)%Z in
  (cps_warning a = MayLagMuch <-> n = 0%Z)
  /\ (cps_warning a = MayLag <-> (1 <= n <= 5)%Z)
  /\ (cps_warning a = NoWarning <-> (6 <= n)%Z).
Proof.
  cbn zeta. pose proof (estimate_constant_ms a Hm) as E.
  set (n := (3600000 * hours a + 60000 * minutes a + 1000 * seconds a
             + milliseconds a)%Z) in *.
  assert (Hn : (0 <= n)%Z) by (unfold n; lia).
  destruct (Z.eq_dec n 0) as [Hz|Hz].
  - assert (C : cps a = 4294967295%Z).
    { unfold cps, f64_one_div, Rle_bool. rewrite E, Hz.
      replace (IZR 0 / 1000) with 0 by (cbn; field).
      destruct (Rle_dec 0 0) as [_|N]; [reflexivity | lra]. }
    unfold cps_warning. rewrite C. cbn. rewrite Hz.
    split; [|split]; split; intro; first [reflexivity | discriminate | lia].
  - assert (Hx : 1 <= IZR n) by (apply IZR_le; lia).
    set (x := IZR n) in *.
    assert (C : cps a = Int_part (1000 / x)).
    { unfold cps, f64_one_div, Rle_bool. rewrite E.
      destruct (Rle_dec (x / 1000) 0) as [L|_].
      { exfalso. unfold Rdiv in L. nra. }
      cbn. replace (1 / (x / 1000)) with (1000 / x) by (field; lra).
      assert (Q : 1000 / x * x = 1000) by (field; lra).
      assert (P : 0 < 1000 / x).
      { apply Rdiv_lt_0_compat; lra. }
      assert (B : 1000 / x <= 1000) by nra.
      unfold f64_as_u32, Rlt_bool, Rle_bool.
      destruct (Rlt_dec (1000 / x) 0); [lra|].
      destruct (Rle_dec 4294967295 (1000 / x)); [lra|]. reflexivity. }
    assert (Q : 1000 / x * x = 1000) by (field; lra).
    assert (W2000 : (2000 <=? cps a)%Z = false).
    { apply Z.leb_gt. rewrite C.
      destruct (Z_lt_le_dec (Int_part (1000 / x)) 2000) as [L|L]; [exact L|].
      apply Int_part_ge in L. nra. }
    assert (W200 : (200 <=? cps a)%Z = true <-> x <= 5).
    { rewrite Z.leb_le, C, Int_part_ge. split; intros H; nra. }
    assert (X5 : x <= 5 <-> (n <= 5)%Z).
    { split; intros H; [apply le_IZR; exact H | apply IZR_le; exact H]. }
    unfold cps_warning. rewrite W2000.
    destruct (200 <=? cps a)%Z eqn:W.
    + assert (n <= 5)%Z by (apply X5, W200; reflexivity).
      split; [|split]; split; intro; first [reflexivity | discriminate | lia].
    + assert (~ (n <= 5)%Z).
      { intros H. apply X5, W200 in H. discriminate. }
      split; [|split]; split; intro; first [reflexivity | discriminate | lia].
Qed.

Lemma cps_warning_constant_witness :
  interval_mode app_default = IntervalMode.Constant
  /\ cps_warning app_default = NoWarning.
Proof.
  assert (Hm : interval_mode app_default = IntervalMode.Constant)
    by reflexivity.
  assert (Hu : (0 <= hours app_default /\ 0 <= minutes app_default
                /\ 0 <= seconds app_default
                /\ 0 <= milliseconds app_default)%Z)
    by (cbn; lia).
  split; [exact Hm|].
  apply (proj2 (proj2 (cps_warning_constant app_default Hm Hu))).
  cbn. lia.
Defined.

(** ** The endpoints of the color threshold *)

Lemma distance_nonneg (c d : Color32) :
  0 <= percentage_distance_between_colors c d.
Proof.
  unfold percentage_distance_between_colors.
  apply Rmult_le_pos; [apply sqrt_pos | lra].
Qed.

Lemma distance_zero_iff (c d : Color32) :
  percentage_distance_between_colors c d <= 0
  <-> c_r c = c_r d /\ c_g c = c_g d /\ c_b c = c_b d.
Proof.
  unfold percentage_distance_between_colors. split.
  - intros H.
    set (x := IZR (Z.abs (c_r c - c_r d))) in *.
    set (y := IZR (Z.abs (c_g c - c_g d))) in *.
    set (z := IZR (Z.abs (c_b c - c_b d))) in *.
    assert (S0 : 0 <= x ^ 2 + y ^ 2 + z ^ 2) by nra.
    assert (Q : sqrt (x ^ 2 + y ^ 2 + z ^ 2) = 0).
    { pose proof (sqrt_pos (x ^ 2 + y ^ 2 + z ^ 2)).
      assert (E : sqrt (x ^ 2 + y ^ 2 + z ^ 2)
                  = sqrt (x ^ 2 + y ^ 2 + z ^ 2) / 441.672956 * 441.672956)
        by (field; apply Rgt_not_eq; lra).
      nra. }
    apply sqrt_eq_0 in Q; [|exact S0].
    assert (Hx : x = 0) by nra. assert (Hy : y = 0) by nra.
    assert (Hz : z = 0) by nra.
    apply eq_IZR_R0 in Hx, Hy, Hz. lia.
  - intros (Er & Eg & Eb). rewrite Er, Eg, Eb, !Z.sub_diag. cbn.
    replace (0 * (0 * 1) + 0 * (0 * 1) + 0 * (0 * 1)) with 0 by ring.
    rewrite sqrt_0. lra.
Qed.

(** With the threshold at 0 ("the color has to be the exact same", as the
    slider's hover text says) a color-mode iteration fires exactly when the
    hovered pixel has the target's red, green and blue. *)
Theorem color_threshold_zero_exact (a : App)
  (Hc : color_mode a = true) (Ht : color_mode_distance_threshold a = 0) :
  should_click a = true
  <-> c_r (hovering_pixel_color a) = c_r (color_mode_color a)
      /\ c_g (hovering_pixel_color a) = c_g (color_mode_color a)
      /\ c_b (hovering_pixel_color a) = c_b (color_mode_color a).
Proof.
  rewrite <- distance_zero_iff, <- Ht.
  unfold should_click, Rle_bool. rewrite Hc. cbn.
  destruct (Rle_dec _ _); split; intros H; auto; try discriminate; contradiction.
Qed.

Lemma color_threshold_zero_exact_witness :
  color_mode app_color_strict = true
  /\ color_mode_distance_threshold app_color_strict = 0
  /\ should_click app_color_strict = true.
Proof.
  assert (Hc : color_mode app_color_strict = true) by reflexivity.
  assert (Ht : color_mode_distance_threshold app_color_strict = 0)
    by reflexivity.
  split; [exact Hc | split; [exact Ht|]].
  apply (proj2 (color_threshold_zero_exact app_color_strict Hc Ht)).
  split; [reflexivity | split; reflexivity].
Defined.

Lemma distance_le_one (c d : Color32) :
  Color32_wf c -> Color32_wf d -> percentage_distance_between_colors c d <= 1.
Proof.
  intros (Cr & Cg & Cb & _) (Dr & Dg & Db & _).
  unfold percentage_distance_between_colors.
  assert (Bx : 0 <= IZR (Z.abs (c_r c - c_r d)) <= 255)
    by (split; [apply IZR_le | apply IZR_le]; lia).
  assert (By : 0 <= IZR (Z.abs (c_g c - c_g d)) <= 255)
    by (split; [apply IZR_le | apply IZR_le]; lia).
  assert (Bz : 0 <= IZR (Z.abs (c_b c - c_b d)) <= 255)
    by (split; [apply IZR_le | apply IZR_le]; lia).
  set (x := IZR (Z.abs (c_r c - c_r d))) in *.
  set (y := IZR (Z.abs (c_g c - c_g d))) in *.
  set (z := IZR (Z.abs (c_b c - c_b d))) in *.
  assert (S : x ^ 2 + y ^ 2 + z ^ 2 <= 441.672956 * 441.672956) by nra.
  assert (Q : sqrt (x ^ 2 + y ^ 2 + z ^ 2) <= 441.672956).
  { rewrite <- (sqrt_square 441.672956) by lra.
    apply sqrt_le_1_alt. exact S. }
  apply Rmult_le_reg_r with 441.672956; [lra|].
  unfold Rdiv. rewrite Rmult_assoc, Rinv_l, Rmult_1_r, Rmult_1_l;
    [exact Q | apply Rgt_not_eq; lra].
Qed.

(** With the threshold at 1 or above ("the color can be any color", as the
    slider's hover text says for 1.0) every iteration passes the gate:
    no pair of [u8] colors is further apart than 1. *)
Theorem color_threshold_one_accepts_all (a : App)
  (Hh : Color32_wf (hovering_pixel_color a))
  (Hc : Color32_wf (color_mode_color a))
  (Ht : 1 <= color_mode_distance_threshold a) :
  should_click a = true.
Proof.
  pose proof (distance_le_one _ _ Hh Hc) as D.
  unfold should_click, Rle_bool.
  destruct (color_mode a); cbn; [|reflexivity].
  destruct (Rle_dec _ _) as [_|N]; [reflexivity | exfalso; apply N; lra].
Qed.

Lemma color_threshold_one_accepts_all_witness :
  color_mode_distance_threshold app_color = 1 /\ should_click app_color = true.
Proof.
  assert (Hh : Color32_wf (hovering_pixel_color app_color))
    by (cbn; unfold Color32_wf; cbn; lia).
  assert (Hc : Color32_wf (color_mode_color app_color))
    by (cbn; unfold Color32_wf; cbn; lia).
  assert (Ht : 1 <= color_mode_distance_threshold app_color)
    by (cbn; lra).
  split; [reflexivity|].
  exact (color_threshold_one_accepts_all app_color Hh Hc Ht).
Defined.

(** ** What the loop leaves alone *)

Lemma same_settings_refl (a : App) : same_settings a a.
Proof. unfold same_settings. repeat split. Qed.

Ltac same_settings_fields :=
  unfold same_settings; cbn; repeat split.

Lemma same_settings_trans (a b c : App) :
  same_settings a b -> same_settings b c -> same_settings a c.
Proof.
  unfold same_settings. intros H1 H2.
  repeat match goal with H : _ /\ _ |- _ => destruct H end.
  repeat split; congruence.
Qed.

Lemma tick_action_same_settings (mouse : Mouse) (u : R) (a : App) :
  same_settings (step_app (fst (tick_action mouse u a))) a.
Proof.
  unfold tick_action.
  destruct (should_click a); [destruct (click_mouse mouse _)|];
    try destruct (time_to_wait _ u); cbn; same_settings_fields.
Qed.

Lemma tick_same_settings (mouse : Mouse) (now u : R) (id : Z) (a : App) :
  same_settings (step_app (fst (tick mouse now u id a))) a.
Proof.
  unfold tick.
  destruct (negb _ || negb _); [apply same_settings_refl|].
  destruct (limit_reached now a); [same_settings_fields|].
  apply tick_action_same_settings.
Qed.

Lemma between_ticks_same_settings (e : TickEnv) (a : App) :
  same_settings (between_ticks e a) a.
Proof.
  unfold between_ticks.
  destruct (env_disable e), (color_mode a) eqn:Hc, (env_hover e); cbn;
    rewrite ?Hc; same_settings_fields.
Qed.

Lemma run_loop_same_settings (mouse : Mouse) (id : Z) (es : list TickEnv) :
  forall (a : App) (acc : list MouseCall),
  same_settings (run_app (run_loop mouse id es a acc)) a.
Proof.
  induction es as [|e es IH]; intros a acc; cbn [run_loop].
  - apply same_settings_refl.
  - pose proof (tick_same_settings mouse (env_now e) (env_u e) id
                  (between_ticks e a)) as T.
    pose proof (between_ticks_same_settings e a) as B.
    destruct (tick _ _ _ _ _) as [[s|s w|s m] cs]; cbn in T |- *;
      eauto using same_settings_trans.
Qed.

(** Whatever happens during a session (clicks, limits, a stop from the UI,
    a panic), [click_loop] changes none of the user's settings: interval,
    button, click mode, color mode, limits, and the UI's own edge flag and
    start time. *)
Theorem click_loop_keeps_settings (mouse : Mouse) (es : list TickEnv) (a : App) :
  same_settings (run_app (click_loop mouse es a)) a.
Proof.
  unfold click_loop, click_loop_start.
  eapply same_settings_trans; [apply run_loop_same_settings|].
  same_settings_fields.
Qed.

(** ** When the loop exits *)

Lemma limit_reached_settings (now : R) (a b : App) :
  same_settings a b -> limit_mode b <> LimitMode.Clicks ->
  limit_reached now a = limit_reached now b.
Proof.
  unfold same_settings, limit_reached. intros H N.
  repeat match goal with H : _ /\ _ |- _ => destruct H end.
  rewrite H11. destruct (limit_mode b); [reflexivity | congruence |].
  congruence.
Qed.

Lemma run_loop_exit_limit (mouse : Mouse) (id : Z) (a0 : App)
  (N : limit_mode a0 <> LimitMode.Clicks) (es : list TickEnv) :
  Forall (fun e => env_disable e = false) es ->
  forall (a : App) (acc : list MouseCall) (a'' : App) (cs : list MouseCall),
  same_settings a a0 -> clicker_enabled a = true -> clicker_id a = id ->
  run_loop mouse id es a acc = Exited a'' cs ->
  Exists (fun e => limit_reached (env_now e) a0 = true) es
  /\ clicker_enabled a'' = false.
Proof.
  induction 1 as [|e es Hd Hds IH]; intros a acc a'' cs S He Hi R0;
    cbn [run_loop] in R0; [discriminate|].
  destruct (between_ticks_frame e a) as (_ & _ & Hi' & _ & _ & _ & He').
  pose proof (between_ticks_same_settings e a) as B.
  set (a' := between_ticks e a) in *.
  rewrite He, Hd in He'. cbn in He'.
  unfold tick in R0. rewrite He', Hi', Hi, Z.eqb_refl in R0. cbn in R0.
  destruct (limit_reached (env_now e) a') eqn:L.
  - injection R0 as <- _. split; [|reflexivity].
    apply Exists_cons_hd.
    rewrite <- (limit_reached_settings _ a' a0); [exact L | | exact N].
    eauto using same_settings_trans.
  - pose proof (tick_action_frame mouse (env_u e) a') as (Fe & Fi & _).
    pose proof (tick_action_same_settings mouse (env_u e) a') as Fs.
    pose proof (tick_action_not_break mouse (env_u e) a') as Nb.
    destruct (tick_action mouse (env_u e) a') as [[s|s w|s m] cs'];
      [exfalso; eapply Nb; reflexivity | | discriminate].
    cbn in Fe, Fi, Fs.
    destruct (IH s _ _ _ (same_settings_trans _ _ _ Fs
                            (same_settings_trans _ _ _ B S))
                 (eq_trans Fe He') (eq_trans Fi (eq_trans Hi' Hi)) R0)
      as [Ex Ha].
    split; [apply Exists_cons_tl; exact Ex | exact Ha].
Qed.

Lemma click_loop_start_enabled (a : App) :
  clicker_enabled (fst (click_loop_start a)) = clicker_enabled a
  /\ same_settings (fst (click_loop_start a)) a.
Proof. split; [reflexivity | same_settings_fields]. Qed.

(** With [LimitMode::None], a session the UI does not stop never leaves its
    loop: it only ends by a panic. *)
Theorem no_limit_never_exits (mouse : Mouse) (es : list TickEnv) (a : App)
  (Hl : limit_mode a = LimitMode.None) (He : clicker_enabled a = true)
  (Hd : Forall (fun e => env_disable e = false) es) :
  match click_loop mouse es a with Exited _ _ => False | _ => True end.
Proof.
  unfold click_loop. destruct (click_loop_start a) as [a1 id] eqn:St.
  destruct (click_loop_start_enabled a) as [E1 S1]. rewrite St in E1, S1.
  cbn in E1, S1.
  destruct (run_loop mouse id es a1 []) as [a'' cs| |] eqn:R0; try exact I.
  assert (Hi : clicker_id a1 = id) by (injection St as <- <-; reflexivity).
  destruct (run_loop_exit_limit mouse id a ltac:(rewrite Hl; discriminate)
              es Hd a1 [] a'' cs S1 (eq_trans E1 He) Hi R0) as [Ex _].
  apply Exists_exists in Ex as (e & _ & L).
  unfold limit_reached in L. rewrite Hl in L. discriminate.
Qed.

Lemma no_limit_never_exits_witness :
  match click_loop mouse_ok (quiet_ticks 3) app_color with
  | Exited _ _ => False | _ => True end.
Proof.
  apply (no_limit_never_exits mouse_ok (quiet_ticks 3) app_color);
    [reflexivity | reflexivity | repeat constructor].
Defined.

(** With [LimitMode::Time], a session the UI does not stop leaves its loop
    only at an iteration whose clock has reached [clicker_start_time +
    limit_mode_time], and then with [clicker_enabled] cleared; an iteration
    at such a time by the current, enabled instance does break, with no
    pointer call. *)
Theorem time_limit_exit (mouse : Mouse) (es : list TickEnv) (a : App)
  (Hl : limit_mode a = LimitMode.Time)
  (Hd : Forall (fun e => env_disable e = false) es) :
  (forall a'' cs, clicker_enabled a = true ->
     click_loop mouse es a = Exited a'' cs ->
     Exists (fun e => limit_mode_time a <= env_now e - clicker_start_time a) es
     /\ clicker_enabled a'' = false)
  /\ (forall (now u : R) (id : Z) (b : App),
        clicker_enabled b = true -> clicker_id b = id ->
        limit_mode b = LimitMode.Time ->
        limit_mode_time b <= now - clicker_start_time b ->
        tick mouse now u id b = (Break (set_clicker_enabled false b), [])).
Proof.
  split.
  - intros a'' cs He R0. unfold click_loop in R0.
    destruct (click_loop_start a) as [a1 id] eqn:St.
    destruct (click_loop_start_enabled a) as [E1 S1]. rewrite St in E1, S1.
    cbn in E1, S1.
    assert (Hi : clicker_id a1 = id) by (injection St as <- <-; reflexivity).
    destruct (run_loop_exit_limit mouse id a ltac:(rewrite Hl; discriminate)
                es Hd a1 [] a'' cs S1 (eq_trans E1 He) Hi R0) as [Ex Ha].
    split; [|exact Ha].
    eapply Exists_impl; [|exact Ex]. intros e L.
    unfold limit_reached, Rle_bool in L. rewrite Hl in L.
    destruct (Rle_dec _ _); [assumption | discriminate].
  - intros now u id b He Hi Hb Ht. unfold tick, limit_reached, Rle_bool.
    rewrite He, Hi, Z.eqb_refl, Hb. cbn.
    destruct (Rle_dec _ _) as [_|N]; [reflexivity | contradiction].
Qed.

Lemma time_limit_exit_witness :
  Forall (fun e => env_disable e = false) (quiet_ticks 2)
  /\ match click_loop mouse_ok (quiet_ticks 2) app_time5 with
     | Exited _ _ => False | _ => True end.
Proof.
  assert (Hd : Forall (fun e => env_disable e = false) (quiet_ticks 2))
    by (repeat constructor).
  split; [exact Hd|].
  pose proof (proj1 (time_limit_exit mouse_ok (quiet_ticks 2) app_time5
                       eq_refl Hd)) as T.
  destruct (click_loop mouse_ok (quiet_ticks 2) app_time5) as [a'' cs| |];
    try exact I.
  destruct (T a'' cs eq_refl eq_refl) as [Ex _].
  apply Exists_exists in Ex as (e & In & L).
  cbn in In. destruct In as [<-|[<-|[]]]; cbn in L; lra.
Defined.

(** ** The CPS warning in [Random] mode *)

Lemma f64_as_u32_ge (k : Z) (r : R) :
  (0 <= k <= 4294967295)%Z -> 0 <= r ->
  (k <= f64_as_u32 (Finite r))%Z <-> IZR k <= r.
Proof.
  intros Hk Hr. unfold f64_as_u32, Rlt_bool, Rle_bool.
  destruct (Rlt_dec r 0); [lra|].
  destruct (Rle_dec 4294967295 r) as [L|L].
  - split; intros _; [|lia].
    apply Rle_trans with 4294967295; [apply IZR_le; lia | exact L].
  - apply Int_part_ge.
Qed.

Lemma inv_ge_iff (c m : R) : 0 < c -> 0 < m -> c <= 1 / m <-> m <= 1 / c.
Proof.
  intros Hc Hm.
  assert (Q : 1 / m * m = 1) by (field; lra).
  assert (Q' : 1 / c * c = 1) by (field; lra).
  assert (P : 0 < 1 / m) by (apply Rdiv_lt_0_compat; lra).
  assert (P' : 0 < 1 / c) by (apply Rdiv_lt_0_compat; lra).
  split; intros H; nra.
Qed.

(** In [Random] mode the estimate reads the lower bound [min] alone (the
    clamp keeps it at 0 or above): the red warning shows exactly when
    [min <= 1/2000] s, the yellow one exactly when [1/2000 < min <= 1/200],
    and none above. *)
Theorem cps_warning_random (a : App)
  (Hm : interval_mode a = IntervalMode.Random)
  (H0 : 0 <= interval_mode_random_min a) :
  let m := interval_mode_random_min a in
  (cps_warning a = MayLagMuch <-> m <= 1 / 2000)
  /\ (cps_warning a = MayLag <-> 1 / 2000 < m <= 1 / 200)
  /\ (cps_warning a = NoWarning <-> 1 / 200 < m).
Proof.
  cbn zeta. set (m := interval_mode_random_min a) in *.
  assert (E : estimate_total_seconds a = m)
    by (unfold estimate_total_seconds; rewrite Hm; reflexivity).
  destruct (Req_dec m 0) as [Hz|Hz].
  - assert (C : cps a = 4294967295%Z).
    { unfold cps, f64_one_div, Rle_bool. rewrite E, Hz.
      destruct (Rle_dec 0 0) as [_|N]; [reflexivity | lra]. }
    unfold cps_warning. rewrite C. cbn. rewrite Hz.
    split; [|split]; split; intro; first [discriminate | lra | reflexivity].
  - assert (Hp : 0 < m) by lra.
    assert (C : cps a = f64_as_u32 (Finite (1 / m))).
    { unfold cps, f64_one_div, Rle_bool. rewrite E.
      destruct (Rle_dec m 0); [lra|]. reflexivity. }
    assert (P : 0 <= 1 / m) by (apply Rlt_le, Rdiv_lt_0_compat; lra).
    assert (W2000 : (2000 <=? cps a)%Z = true <-> m <= 1 / 2000).
    { rewrite Z.leb_le, C, f64_as_u32_ge by (lia || exact P).
      apply inv_ge_iff; lra. }
    assert (W200 : (200 <=? cps a)%Z = true <-> m <= 1 / 200).
    { rewrite Z.leb_le, C, f64_as_u32_ge by (lia || exact P).
      apply inv_ge_iff; lra. }
    unfold cps_warning.
    destruct (2000 <=? cps a)%Z eqn:A.
    + assert (m <= 1 / 2000) by (apply W2000; reflexivity).
      split; [|split]; split; intro; first [reflexivity | discriminate | lra].
    + assert (~ m <= 1 / 2000) by (intros L; apply W2000 in L; discriminate).
      destruct (200 <=? cps a)%Z eqn:B.
      * assert (m <= 1 / 200) by (apply W200; reflexivity).
        split; [|split]; split; intro; first [reflexivity | discriminate | lra].
      * assert (~ m <= 1 / 200) by (intros L; apply W200 in L; discriminate).
        split; [|split]; split; intro; first [reflexivity | discriminate | lra].
Qed.

Lemma cps_warning_random_witness :
  interval_mode app_random = IntervalMode.Random
  /\ cps_warning app_random = NoWarning.
Proof.
  assert (Hm : interval_mode app_random = IntervalMode.Random) by reflexivity.
  assert (H0 : 0 <= interval_mode_random_min app_random) by (cbn; lra).
  split; [exact Hm|].
  apply (proj2 (proj2 (cps_warning_random app_random Hm H0))). cbn. lra.
Defined.
